(** * Array: a ctypes wrapper around a C dynamic array

    Shallow embedding of [src/Array.py].  The Python class [Array] forwards
    every operation to a C shared library loaded with [CDLL]; only the
    wrapper is in the repository, so the wrapper is embedded from its source
    and the C functions it calls are modelled from the specification of the
    storage engine (module [lib]).

    Python integers are [Z], Python floats are IEEE binary64 numbers
    ([PrimFloat.float]).  The conversions ctypes performs on the arguments
    of a foreign call ([argtypes]) are written out in module [ctypes]. *)

From Stdlib Require Import ZArith List Bool String Lia Floats.
Import ListNotations.
Open Scope Z_scope.

(** ** Python values and exceptions *)

(** The values the wrapper's signatures admit: [Union[int, float]]. *)
Inductive pyval : Type :=
| PyInt (z : Z)
| PyFloat (f : float).

(** The exception classes the wrapper and ctypes raise; messages are left
    out. *)
Inductive exn : Type :=
| TypeError
| IndexError
| ValueError
| OverflowError
| AttributeError
| ArgumentError.

(** Outcome of a call: a returned value, a raised exception, or
    [Unspecified] when a C function is called outside the contract the
    specification gives it. *)
Inductive outcome (A : Type) : Type :=
| Ok (a : A)
| Raise (e : exn)
| Unspecified.

Arguments Ok {A} a.
Arguments Raise {A} e.
Arguments Unspecified {A}.

(** Exact value of a finite binary64 number as [m * 2^e], compared with an
    integer the way Python compares [float] with [int] (no rounding). *)
Definition float_cmp_int (f : float) (z : Z) : option comparison :=
  match Prim2SF f with
  | S754_zero _ => Some (0 ?= z)
  | S754_infinity false => Some Gt
  | S754_infinity true => Some Lt
  | S754_nan => None
  | S754_finite s m e =>
      let n := if s then Z.neg m else Z.pos m in
      if 0 <=? e then Some (n * 2 ^ e ?= z)
      else Some (n ?= z * 2 ^ (- e))
  end.

(** Python's [x > n] for a value [x] and an integer literal [n]. *)
Definition py_gt_int (x : pyval) (n : Z) : bool :=
  match x with
  | PyInt z => n <? z
  | PyFloat f =>
      match float_cmp_int f n with
      | Some Gt => true
      | _ => false
      end
  end.

(** Python's [x != y] on numbers. *)
Definition py_ne (x y : pyval) : bool :=
  match x, y with
  | PyInt a, PyInt b => negb (a =? b)
  | PyFloat a, PyFloat b => negb (PrimFloat.eqb a b)
  | PyFloat a, PyInt b
  | PyInt b, PyFloat a =>
      match float_cmp_int a b with
      | Some Eq => false
      | _ => true
      end
  end.

(** ** ctypes argument conversion *)

Module ctypes.

(** Two's complement reading of the low [w] bits of [z]: ctypes converts
    integers with a mask and does no overflow checking. *)
Definition wrap (w : Z) (z : Z) : Z :=
  (z + 2 ^ (w - 1)) mod 2 ^ w - 2 ^ (w - 1).

(** [c_int]: 32 bits. *)
Definition c_int (z : Z) : Z := wrap 32 z.

(** [c_long]: 64 bits (LP64, the platform of the library path). *)
Definition c_long (v : pyval) : outcome Z :=
  match v with
  | PyInt z => Ok (wrap 64 z)
  | PyFloat _ => Raise ArgumentError
  end.

(** Nearest binary64 number to an integer, ties to even. *)
Definition double_of_Z (z : Z) : float :=
  SF2Prim (binary_normalize prec emax z 0 false).

(** [c_double]: a float is passed as it is, an integer is converted and
    rejected when it is too large for a double. *)
Definition c_double (v : pyval) : outcome float :=
  match v with
  | PyFloat f => Ok f
  | PyInt z =>
      let f := double_of_Z z in
      if PrimFloat.is_infinity f then Raise ArgumentError else Ok f
  end.

End ctypes.

(** ** The C structures *)

(** [Element]: a kind tag ([et_long] = 0, [et_dbl] = 1) and its payload. *)
Inductive Element : Type :=
| et_long (z : Z)
| et_dbl (f : float).

(** [CArray]: the occupied slots [0, used) of the buffer, in order.  The
    allocated capacity [size] is not observable through any function the
    wrapper calls and is left out. *)
Definition CArray : Type := list Element.

Record LongPopResult : Type := mkLongPopResult
  { l_resultCode : Z; l_result : Z }.

Record DoublePopResult : Type := mkDoublePopResult
  { d_resultCode : Z; d_result : float }.

(** ** The C library

    The shared object behind [lib = CDLL(...)] is not part of the
    repository.  Each function the wrapper calls is modelled from the
    specification of the storage engine.  A result of [None] marks a call the
    specification gives no meaning to. *)

Module lib.

(** Modelled from the spec: the payload of an element read as the Long
    kind; an element is never read as the wrong kind. *)
Definition long_of (e : Element) : option Z :=
  match e with et_long z => Some z | et_dbl _ => None end.

(** Modelled from the spec: the payload of an element read as the Double
    kind. *)
Definition dbl_of (e : Element) : option float :=
  match e with et_dbl f => Some f | et_long _ => None end.

(** Modelled from the spec: [checkIndex] of the Bounds and Range Validator,
    which is missing with the C library.  It fails on an empty container
    and when [pos] is outside [-length, length); a negative [pos] is
    normalized to [length + pos]. *)
Definition checkIndex (a : CArray) (pos : Z) : option nat :=
  let n := Z.of_nat (List.length a) in
  if n =? 0 then None
  else if (pos <? - n) || (n <=? pos) then None
  else Some (Z.to_nat (if pos <? 0 then n + pos else pos)).

(** Modelled from the spec: [rawGet] of the Storage Engine, missing with
    the C library: unchecked access to an occupied slot. *)
Definition rawGet (a : CArray) (i : nat) : option Element := nth_error a i.

(** Modelled from the spec: [rawSet] of the Storage Engine, missing with
    the C library: overwrites one occupied slot in place. *)
Definition rawSet (a : CArray) (i : nat) (e : Element) : CArray :=
  firstn i a ++ e :: skipn (S i) a.

(** Modelled from the spec: [create], the missing C function [initArray];
    the new container has length 0. *)
Definition initArray (requestedCapacity : Z) : CArray := [].

(** Modelled from the spec: [length], the missing C function
    [getArrayLength]: the count of occupied slots. *)
Definition getArrayLength (a : CArray) : Z := Z.of_nat (List.length a).

(** Modelled from the spec: the kind discriminator read by [getAt], the
    missing C function [returnType]; the position is validated and
    normalized as in [checkIndex]. *)
Definition returnType (a : CArray) (pos : Z) : option Z :=
  match checkIndex a pos with
  | None => None
  | Some i =>
      match rawGet a i with
      | Some (et_long _) => Some 0
      | Some (et_dbl _) => Some 1
      | None => None
      end
  end.

(** Modelled from the spec: [getAt] on a Long element, the missing C
    function [returnLong]: the payload of the element at the normalized
    position. *)
Definition returnLong (a : CArray) (pos : Z) : option Z :=
  match checkIndex a pos with
  | None => None
  | Some i =>
      match rawGet a i with
      | Some e => long_of e
      | None => None
      end
  end.

(** Modelled from the spec: [getAt] on a Double element, the missing C
    function [returnDouble]. *)
Definition returnDouble (a : CArray) (pos : Z) : option float :=
  match checkIndex a pos with
  | None => None
  | Some i =>
      match rawGet a i with
      | Some e => dbl_of e
      | None => None
      end
  end.

(** Modelled from the spec: the storage part of [append], the missing C
    function [insertLong]: writes at [length] and increments [length]. *)
Definition insertLong (a : CArray) (v : Z) : CArray := a ++ [et_long v].

(** Modelled from the spec: the storage part of [append], the missing C
    function [insertDouble]. *)
Definition insertDouble (a : CArray) (v : float) : CArray := a ++ [et_dbl v].

(** Modelled from the spec: the storage part of [setAt], the missing C
    function [insertLongToPos]: overwrites the slot at the normalized
    position, the length does not change. *)
Definition insertLongToPos (a : CArray) (v : Z) (pos : Z) : option CArray :=
  match checkIndex a pos with
  | None => None
  | Some i => Some (rawSet a i (et_long v))
  end.

(** Modelled from the spec: the storage part of [setAt], the missing C
    function [insertDoubleToPos]. *)
Definition insertDoubleToPos (a : CArray) (v : float) (pos : Z)
  : option CArray :=
  match checkIndex a pos with
  | None => None
  | Some i => Some (rawSet a i (et_dbl v))
  end.

(** Modelled from the spec: [insertAt]: the elements below [pos] in order,
    the new element, the elements from [pos] on in order.  The bounds for
    insertion are [0 <= pos <= length]; the specification gives no result
    outside them. *)
Definition insertAt (src : CArray) (e : Element) (pos : Z) : option CArray :=
  if (0 <=? pos) && (pos <=? Z.of_nat (List.length src)) then
    Some (firstn (Z.to_nat pos) src ++ e :: skipn (Z.to_nat pos) src)
  else None.

(** Modelled from the spec: [insertAt] for the Long kind, the missing C
    function [insertLongAtPos]; the result is built in the fresh array
    [temp], whose previous content is dropped. *)
Definition insertLongAtPos (src temp : CArray) (v : Z) (pos : Z)
  : option CArray := insertAt src (et_long v) pos.

(** Modelled from the spec: [insertAt] for the Double kind, the missing C
    function [insertDoubleAtPos]. *)
Definition insertDoubleAtPos (src temp : CArray) (v : float) (pos : Z)
  : option CArray := insertAt src (et_dbl v) pos.

(** Modelled from the spec: the storage part of [removeAt]: the container
    without the slot [i], the other elements in their order. *)
Definition removeAt (src : CArray) (i : nat) : CArray :=
  firstn i src ++ skipn (S i) src.

(** Modelled from the spec: [removeAt] for the Long kind, the missing C
    function [popLong].  The position is validated as in [checkIndex]; on
    failure the result code is 0 and [temp] stays as it was, on success the
    result code is 1, the removed payload is returned and [temp] holds the
    remaining elements. *)
Definition popLong (src temp : CArray) (pos : Z)
  : option (LongPopResult * CArray) :=
  match checkIndex src pos with
  | None => Some (mkLongPopResult 0 0, temp)
  | Some i =>
      match rawGet src i with
      | Some (et_long z) => Some (mkLongPopResult 1 z, removeAt src i)
      | _ => None
      end
  end.

(** Modelled from the spec: [removeAt] for the Double kind, the missing C
    function [popDouble]. *)
Definition popDouble (src temp : CArray) (pos : Z)
  : option (DoublePopResult * CArray) :=
  match checkIndex src pos with
  | None => Some (mkDoublePopResult 0 0%float, temp)
  | Some i =>
      match rawGet src i with
      | Some (et_dbl f) => Some (mkDoublePopResult 1 f, removeAt src i)
      | _ => None
      end
  end.

(** Modelled from the spec: the linear scan of [removeByValue]: the
    container without the first element that satisfies [p], or [None] when
    no element does. *)
Fixpoint removeFirst (p : Element -> bool) (src : CArray) : option CArray :=
  match src with
  | [] => None
  | e :: rest =>
      if p e then Some rest
      else match removeFirst p rest with
           | Some rest' => Some (e :: rest')
           | None => None
           end
  end.

(** Modelled from the spec: the test of [removeByValue] on a slot of a Long
    container, equality of C longs. *)
Definition long_eqb (v : Z) (e : Element) : bool :=
  match e with et_long z => z =? v | et_dbl _ => false end.

(** Modelled from the spec: the test of [removeByValue] on a slot of a
    Double container, [==] on C doubles. *)
Definition dbl_eqb (v : float) (e : Element) : bool :=
  match e with et_dbl f => PrimFloat.eqb f v | et_long _ => false end.

(** Modelled from the spec: [removeByValue] for the Long kind, the missing
    C function [removeLong].  The code is -1 when no element equals the
    value (the wrapper's docstring) and [temp] stays as it was; otherwise
    the code is 0 and [temp] holds the remaining elements. *)
Definition removeLong (src temp : CArray) (v : Z) : Z * CArray :=
  match removeFirst (long_eqb v) src with
  | Some rest => (0, rest)
  | None => (-1, temp)
  end.

(** Modelled from the spec: [removeByValue] for the Double kind, the
    missing C function [removeDouble]. *)
Definition removeDouble (src temp : CArray) (v : float) : Z * CArray :=
  match removeFirst (dbl_eqb v) src with
  | Some rest => (0, rest)
  | None => (-1, temp)
  end.

(** Modelled from the spec: the loop of [binarySearch] on the interval
    [low, high): compare the target with the midpoint element, continue in
    the lower half when the target is less, in the upper half when it is
    greater, return the midpoint on equality, and -1 when the interval is
    empty.  [None] when the comparison has no answer or the fuel is
    spent. *)
Fixpoint bsearch {T : Type} (cmp : T -> T -> option comparison)
    (fuel : nat) (xs : list T) (target : T) (low high : Z) : option Z :=
  match fuel with
  | O => None
  | S fuel' =>
      if high <=? low then Some (-1)
      else
        let mid := low + (high - low) / 2 in
        match nth_error xs (Z.to_nat mid) with
        | None => None
        | Some x =>
            match cmp target x with
            | Some Lt => bsearch cmp fuel' xs target low mid
            | Some Gt => bsearch cmp fuel' xs target (mid + 1) high
            | Some Eq => Some mid
            | None => None
            end
        end
  end.

(** Modelled from the spec: the payloads of a container that holds one kind
    only, as the search reads them. *)
Fixpoint payloads {T : Type} (payload : Element -> option T) (a : CArray)
  : option (list T) :=
  match a with
  | [] => Some []
  | e :: rest =>
      match payload e, payloads payload rest with
      | Some x, Some xs => Some (x :: xs)
      | _, _ => None
      end
  end.

(** Modelled from the spec: the comparison of the target with the midpoint
    element, on C longs. *)
Definition long_cmp (x y : Z) : option comparison := Some (x ?= y).

(** Modelled from the spec: the comparison of the target with the midpoint
    element, on C doubles; a NaN is neither less, greater nor equal. *)
Definition dbl_cmp (x y : float) : option comparison :=
  match PrimFloat.compare x y with
  | FEq => Some Eq
  | FLt => Some Lt
  | FGt => Some Gt
  | FNotComparable => None
  end.

(** Modelled from the spec: [binarySearch] for the Long kind, the missing C
    function [binarySearchLong], started on the whole container. *)
Definition binarySearchLong (a : CArray) (target : Z) : option Z :=
  match payloads long_of a with
  | None => None
  | Some xs =>
      bsearch long_cmp (S (List.length xs)) xs target 0 (Z.of_nat (List.length xs))
  end.

(** Modelled from the spec: [binarySearch] for the Double kind, the missing
    C function [binarySearchDouble]. *)
Definition binarySearchDouble (a : CArray) (target : float) : option Z :=
  match payloads dbl_of a with
  | None => None
  | Some xs =>
      bsearch dbl_cmp (S (List.length xs)) xs target 0 (Z.of_nat (List.length xs))
  end.

End lib.

(** ** The wrapper class [Array]

    An [Array] object holds the C structure and the type code.  [released]
    is the trace of the buffers handed to [lib.freeArray], oldest first.
    [__str__] and [__insert_int], which no method calls, are left out. *)

Record Array : Type := mkArray
  { array : CArray;
    typecode : string;
    released : list CArray }.

(** A method is a state transformer on [self] that returns an outcome; the
    state is kept when an exception is raised, as a caller that catches the
    exception sees it. *)
Definition M (A : Type) : Type := Array -> outcome A * Array.

Definition ret {A : Type} (a : A) : M A := fun self => (Ok a, self).

Definition raise {A : Type} (e : exn) : M A := fun self => (Raise e, self).

Definition bind {A B : Type} (c : M A) (k : A -> M B) : M B :=
  fun self =>
    match c self with
    | (Ok a, self') => k a self'
    | (Raise e, self') => (Raise e, self')
    | (Unspecified, self') => (Unspecified, self')
    end.

Declare Scope py_scope.
Delimit Scope py_scope with py.
Notation "x <- c ;; k" := (bind c (fun x => k))
  (at level 100, c at next level, right associativity) : py_scope.
Notation "c ;; k" := (bind c (fun _ => k))
  (at level 100, right associativity) : py_scope.
Open Scope py_scope.

(** Result of a foreign call. *)
Definition foreign {A : Type} (r : option A) : M A :=
  fun self =>
    match r with
    | Some a => (Ok a, self)
    | None => (Unspecified, self)
    end.

(** Result of converting an argument of a foreign call. *)
Definition convert {A : Type} (r : outcome A) : M A := fun self => (r, self).

Definition get_array : M CArray := fun self => (Ok (array self), self).

Definition get_typecode : M string := fun self => (Ok (typecode self), self).

(** Assignment to [self.array], and the effect of a C function that writes
    through the pointer to it. *)
Definition set_array (a : CArray) : M unit :=
  fun self => (Ok tt, mkArray a (typecode self) (released self)).

Definition is_i (tc : string) : bool := String.eqb tc "i".
Definition is_d (tc : string) : bool := String.eqb tc "d".
Definition is_a (tc : string) : bool := String.eqb tc "a".

(** [__len__]. *)
Definition __len__ : M Z :=
  a <- get_array ;;
  ret (lib.getArrayLength a).

(** [__index_error_handler]. *)
Definition __index_error_handler (pos : Z) : M unit :=
  n <- __len__ ;;
  if n =? 0 then raise IndexError
  else
    n1 <- __len__ ;;
    n2 <- __len__ ;;
    if (pos <? - n1) || (n2 <=? pos) then raise IndexError
    else ret tt.

(** [__overflow_error_handler], a static method. *)
Definition __overflow_error_handler (arg : pyval) : M unit :=
  if py_gt_int arg 2147483647 then raise OverflowError
  else ret tt.

(** [__getitem__]. *)
Definition __getitem__ (pos : Z) : M pyval :=
  __index_error_handler pos ;;
  a <- get_array ;;
  el_type <- foreign (lib.returnType a (ctypes.c_int pos)) ;;
  if el_type =? 0 then
    v <- foreign (lib.returnLong a (ctypes.c_int pos)) ;;
    ret (PyInt v)
  else if el_type =? 1 then
    v <- foreign (lib.returnDouble a (ctypes.c_int pos)) ;;
    ret (PyFloat v)
  else raise ValueError.

(** [__setitem__].  The C function writes into the buffer of [self.array]
    in place.  [key] is a third argument, past the declared [argtypes], which
    ctypes passes as a C [int]. *)
Definition __setitem__ (key : Z) (value : pyval) : M unit :=
  __index_error_handler key ;;
  __overflow_error_handler value ;;
  tc <- get_typecode ;;
  if is_i tc then
    a <- get_array ;;
    v <- convert (ctypes.c_long value) ;;
    a' <- foreign (lib.insertLongToPos a v (ctypes.c_int key)) ;;
    set_array a'
  else if is_d tc then
    a <- get_array ;;
    v <- convert (ctypes.c_double value) ;;
    a' <- foreign (lib.insertDoubleToPos a v (ctypes.c_int key)) ;;
    set_array a'
  else ret tt.

(** [__free]: [lib.freeArray(self.array)]. *)
Definition __free : M unit :=
  fun self =>
    (Ok tt,
     mkArray (array self) (typecode self) (released self ++ [array self])).

(** [pop].  [result] is [None] when the type code selects no branch, and
    reading [result.resultCode] then raises [AttributeError]. *)
Definition pop (pos : Z) : M pyval :=
  let temp := lib.initArray 1 in
  tc <- get_typecode ;;
  a <- get_array ;;
  r <- (if is_i tc then
          r <- foreign (lib.popLong a temp (ctypes.c_int pos)) ;;
          ret (Some (l_resultCode (fst r), PyInt (l_result (fst r))), snd r)
        else if is_d tc then
          r <- foreign (lib.popDouble a temp (ctypes.c_int pos)) ;;
          ret (Some (d_resultCode (fst r), PyFloat (d_result (fst r))), snd r)
        else ret (None, temp)) ;;
  match fst r with
  | None => raise AttributeError
  | Some (resultCode, result) =>
      if negb (resultCode =? 0) then
        __free ;;
        set_array (snd r) ;;
        ret result
      else raise IndexError
  end.

(** [search]. *)
Definition search (arg : pyval) : M Z :=
  tc <- get_typecode ;;
  a <- get_array ;;
  pos <- (if is_i tc then
            v <- convert (ctypes.c_long arg) ;;
            foreign (lib.binarySearchLong a v)
          else if is_d tc then
            v <- convert (ctypes.c_double arg) ;;
            foreign (lib.binarySearchDouble a v)
          else ret (-1)) ;;
  if pos =? -1 then raise ValueError
  else ret pos.

(** [remove]. *)
Definition remove (value : pyval) : M unit :=
  let temp := lib.initArray 1 in
  tc <- get_typecode ;;
  a <- get_array ;;
  r <- (if is_i tc then
          v <- convert (ctypes.c_long value) ;;
          ret (lib.removeLong a temp v)
        else if is_d tc then
          v <- convert (ctypes.c_double value) ;;
          ret (lib.removeDouble a temp v)
        else ret (0, temp)) ;;
  if fst r =? -1 then raise ValueError
  else
    __free ;;
    set_array (snd r).

(** [__insert_long]. *)
Definition __insert_long (arg : pyval) : M unit :=
  __overflow_error_handler arg ;;
  a <- get_array ;;
  v <- convert (ctypes.c_long arg) ;;
  set_array (lib.insertLong a v).

(** [__insert_double]. *)
Definition __insert_double (arg : pyval) : M unit :=
  a <- get_array ;;
  v <- convert (ctypes.c_double arg) ;;
  set_array (lib.insertDouble a v).

(** [append].  A [pyval] is an [int] or a [float], so the branches for a
    list and for any other object are not reached. *)
Definition append (arg : pyval) : M unit :=
  tc <- get_typecode ;;
  if is_a tc then
    match arg with
    | PyInt _ => __insert_long arg
    | PyFloat _ => __insert_double arg
    end
  else if is_i tc then
    match arg with
    | PyInt _ => __insert_long arg
    | PyFloat _ => raise TypeError
    end
  else if is_d tc then __insert_double arg
  else ret tt.

(** [insert]. *)
Definition insert (pos : Z) (arg : pyval) : M unit :=
  let temp := lib.initArray 1 in
  tc <- get_typecode ;;
  a <- get_array ;;
  temp' <- (if is_i tc then
              v <- convert (ctypes.c_long arg) ;;
              foreign (lib.insertLongAtPos a temp v (ctypes.c_int pos))
            else if is_d tc then
              v <- convert (ctypes.c_double arg) ;;
              foreign (lib.insertDoubleAtPos a temp v (ctypes.c_int pos))
            else ret temp) ;;
  __free ;;
  set_array temp'.

(** The loop of [__eq__] over the indices [range(len(self))]; [other] is
    any sequence, indexing it past its end raises [IndexError]. *)
Fixpoint eq_loop (indices : list nat) (other : list pyval) : M bool :=
  match indices with
  | [] => ret true
  | i :: rest =>
      x <- __getitem__ (Z.of_nat i) ;;
      y <- (match nth_error other i with
            | Some y => ret y
            | None => raise IndexError
            end) ;;
      if py_ne x y then ret false
      else eq_loop rest other
  end.

(** [__eq__]. *)
Definition __eq__ (other : list pyval) : M bool :=
  n <- __len__ ;;
  eq_loop (seq 0 (Z.to_nat n)) other.

(** A [for] loop over a list. *)
Fixpoint for_each {A : Type} (body : A -> M unit) (l : list A) : M unit :=
  match l with
  | [] => ret tt
  | x :: rest => body x ;; for_each body rest
  end.

(** [__init__]: the object when the constructor returns, or the exception
    it raises. *)
Definition __init__ (typecode : string) (initializer : option (list pyval))
  : outcome Array :=
  if negb (is_i typecode || is_d typecode || is_a typecode) then
    Raise TypeError
  else
    let self := mkArray [] typecode [] in
    let body :=
      match initializer with
      | Some (x :: l) =>
          set_array (lib.initArray (Z.of_nat (List.length (x :: l)))) ;;
          for_each append (x :: l)
      | _ => set_array (lib.initArray 1)
      end in
    match body self with
    | (Ok _, self') => Ok self'
    | (Raise e, _) => Raise e
    | (Unspecified, _) => Unspecified
    end.

(** ** Predicates of the statements

    The invariants of the data model and the ranges of the C types, as
    executable predicates. *)

(** The Python value [__getitem__] returns for an element. *)
Definition value_of (e : Element) : pyval :=
  match e with
  | et_long z => PyInt z
  | et_dbl f => PyFloat f
  end.

(** The integers a C [int] holds. *)
Definition is_c_int (z : Z) : bool :=
  (-2147483648 <=? z) && (z <=? 2147483647).

(** The integers a C [long] holds. *)
Definition is_c_long (z : Z) : bool :=
  (-9223372036854775808 <=? z) && (z <=? 9223372036854775807).

(** An element of the kind the type code selects, with a payload of that
    kind. *)
Definition valid_element (tc : string) (e : Element) : bool :=
  match e with
  | et_long z => is_i tc && is_c_long z
  | et_dbl _ => is_d tc
  end.

(** A homogeneous container: the type code is Long or Double and every
    element is of that kind. *)
Definition homogeneous (self : Array) : bool :=
  (is_i (typecode self) || is_d (typecode self))
  && forallb (valid_element (typecode self)) (array self).

(** The normalized index of a signed position in a container of length
    [n]. *)
Definition normalize (n pos : Z) : nat :=
  Z.to_nat (if pos <? 0 then n + pos else pos).


(** The content after splicing [e] in at index [i]. *)
Definition spliced (a : CArray) (i : nat) (e : Element) : CArray :=
  firstn i a ++ e :: skipn i a.


(** Unfolds the monad of the wrapper's methods. *)
Ltac run :=
  unfold __len__, lib.getArrayLength;
  unfold bind, ret, raise, foreign, convert, get_array, get_typecode,
    set_array, __free; cbn beta iota.

(** Splits on the scrutinee of an innermost [match] or [if] of the goal. *)
Ltac break_match :=
  match goal with
  | |- context [match ?x with _ => _ end] =>
      lazymatch x with
      | context [match _ with _ => _ end] => fail
      | _ => destruct x eqn:?
      end
  end.

(** Unfolds the methods down to the library calls and conversions. *)
Ltac expose :=
  unfold __getitem__, __setitem__, pop, search, remove, append, insert,
    __insert_long, __insert_double, __index_error_handler,
    __overflow_error_handler;
  run;
  cbn beta iota zeta delta [fst snd array typecode released].

(** ** Conversions *)

Lemma wrap_32_id (z : Z) :
  is_c_int z = true -> ctypes.c_int z = z.
Proof.
  unfold is_c_int, ctypes.c_int, ctypes.wrap. intros H.
  apply andb_prop in H. destruct H as [Hlo Hhi].
  apply Z.leb_le in Hlo. apply Z.leb_le in Hhi.
  change (2 ^ (32 - 1)) with 2147483648.
  change (2 ^ 32) with 4294967296.
  rewrite Z.mod_small; lia.
Qed.

Lemma wrap_64_id (z : Z) :
  is_c_long z = true -> ctypes.c_long (PyInt z) = Ok z.
Proof.
  unfold is_c_long, ctypes.c_long, ctypes.wrap. intros H.
  apply andb_prop in H. destruct H as [Hlo Hhi].
  apply Z.leb_le in Hlo. apply Z.leb_le in Hhi.
  change (2 ^ (64 - 1)) with 9223372036854775808.
  change (2 ^ 64) with 18446744073709551616.
  rewrite Z.mod_small; [f_equal|]; lia.
Qed.

Lemma c_int_bounds (z : Z) :
  -2147483648 <= ctypes.c_int z <= 2147483647.
Proof.
  unfold ctypes.c_int, ctypes.wrap.
  change (2 ^ (32 - 1)) with 2147483648.
  change (2 ^ 32) with 4294967296.
  pose proof (Z.mod_pos_bound (z + 2147483648) 4294967296 eq_refl). lia.
Qed.

(** ** Index validation in the library *)

Lemma checkIndex_inside (a : CArray) (pos : Z) :
  - Z.of_nat (List.length a) <= pos < Z.of_nat (List.length a) ->
  lib.checkIndex a pos = Some (normalize (Z.of_nat (List.length a)) pos).
Proof.
  intros H. unfold lib.checkIndex, normalize.
  destruct (Z.eqb_spec (Z.of_nat (List.length a)) 0) as [E|E]; [lia|].
  destruct (Z.ltb_spec pos (- Z.of_nat (List.length a))); [lia|].
  destruct (Z.leb_spec (Z.of_nat (List.length a)) pos); [lia|].
  reflexivity.
Qed.

Lemma checkIndex_outside (a : CArray) (pos : Z) :
  pos < - Z.of_nat (List.length a) \/ Z.of_nat (List.length a) <= pos ->
  lib.checkIndex a pos = None.
Proof.
  intros H. unfold lib.checkIndex.
  destruct (Z.eqb_spec (Z.of_nat (List.length a)) 0) as [E|E]; [reflexivity|].
  destruct (Z.ltb_spec pos (- Z.of_nat (List.length a))); [reflexivity|].
  destruct (Z.leb_spec (Z.of_nat (List.length a)) pos); [reflexivity|lia].
Qed.

Lemma normalize_lt (n pos : Z) :
  - n <= pos < n -> (normalize n pos < Z.to_nat n)%nat.
Proof.
  intros H. unfold normalize.
  destruct (Z.ltb_spec pos 0); lia.
Qed.

Lemma nth_error_inside {A : Type} (l : list A) (i : nat) :
  (i < List.length l)%nat -> exists x, nth_error l i = Some x.
Proof.
  intros H. destruct (nth_error l i) as [x|] eqn:E.
  - now exists x.
  - apply nth_error_None in E. lia.
Qed.

Lemma c_int_inside (n pos : Z) :
  - n <= pos < n -> - n <= ctypes.c_int pos < n.
Proof.
  intros H. destruct (is_c_int pos) eqn:E.
  - now rewrite (wrap_32_id _ E).
  - pose proof (c_int_bounds pos) as B.
    unfold is_c_int in E. apply andb_false_iff in E.
    destruct E as [E|E]; [apply Z.leb_gt in E | apply Z.leb_gt in E]; lia.
Qed.

(** ** Running the wrapper's methods *)

Lemma index_error_handler_inside (self : Array) (pos : Z) :
  - Z.of_nat (List.length (array self)) <= pos
    < Z.of_nat (List.length (array self)) ->
  __index_error_handler pos self = (Ok tt, self).
Proof.
  intros H. unfold __index_error_handler. run. cbn.
  destruct (Z.eqb_spec (Z.of_nat (List.length (array self))) 0); [lia|].
  destruct (Z.ltb_spec pos (- Z.of_nat (List.length (array self)))); [lia|].
  destruct (Z.leb_spec (Z.of_nat (List.length (array self))) pos); [lia|].
  reflexivity.
Qed.

Lemma index_error_handler_outside (self : Array) (pos : Z) :
  Z.of_nat (List.length (array self)) = 0
  \/ pos < - Z.of_nat (List.length (array self))
  \/ Z.of_nat (List.length (array self)) <= pos ->
  __index_error_handler pos self = (Raise IndexError, self).
Proof.
  intros H. unfold __index_error_handler. run. cbn.
  destruct (Z.eqb_spec (Z.of_nat (List.length (array self))) 0);
    [reflexivity|].
  destruct (Z.ltb_spec pos (- Z.of_nat (List.length (array self))));
    [reflexivity|].
  destruct (Z.leb_spec (Z.of_nat (List.length (array self))) pos);
    [reflexivity|lia].
Qed.

Lemma getitem_inside (self : Array) (pos : Z) :
  - Z.of_nat (List.length (array self)) <= pos
    < Z.of_nat (List.length (array self)) ->
  exists e,
    nth_error (array self)
      (normalize (Z.of_nat (List.length (array self))) (ctypes.c_int pos))
    = Some e
    /\ __getitem__ pos self = (Ok (value_of e), self).
Proof.
  intros H.
  pose proof (c_int_inside _ _ H) as Hc.
  destruct (nth_error_inside (array self)
              (normalize (Z.of_nat (List.length (array self)))
                 (ctypes.c_int pos))) as [e He].
  { pose proof (normalize_lt _ _ Hc). lia. }
  exists e. split; [exact He|].
  unfold __getitem__. unfold bind at 1.
  rewrite (index_error_handler_inside _ _ H).
  run. unfold lib.returnType, lib.returnLong, lib.returnDouble, lib.rawGet.
  rewrite (checkIndex_inside _ _ Hc), He.
  destruct e; reflexivity.
Qed.

Lemma getitem_outside (self : Array) (pos : Z) :
  Z.of_nat (List.length (array self)) = 0
  \/ pos < - Z.of_nat (List.length (array self))
  \/ Z.of_nat (List.length (array self)) <= pos ->
  __getitem__ pos self = (Raise IndexError, self).
Proof.
  intros H. unfold __getitem__. unfold bind at 1.
  now rewrite (index_error_handler_outside _ _ H).
Qed.

(** C5.  [__getitem__] raises [IndexError] exactly when the container is
    empty or the position is outside [-length, length); on an empty
    container every position is rejected; the exception comes from
    [__index_error_handler], which runs before any call that reads a slot,
    and a position that passes the check yields the element's value. *)
Theorem getitem_index_error (self : Array) (pos : Z) :
  let n := Z.of_nat (List.length (array self)) in
  (__getitem__ pos self = (Raise IndexError, self)
   <-> n = 0 \/ pos < - n \/ n <= pos)
  /\ (n = 0 -> forall p, __getitem__ p self = (Raise IndexError, self))
  /\ (forall e, __index_error_handler pos self = (Raise e, self) ->
        __getitem__ pos self = (Raise e, self))
  /\ (__index_error_handler pos self = (Ok tt, self) ->
        exists v, __getitem__ pos self = (Ok v, self)).
Proof.
  intros n. subst n. repeat split.
  - intros Hraise.
    destruct (Z.eq_dec (Z.of_nat (List.length (array self))) 0) as [E|E];
      [now left|].
    destruct (Z_lt_dec pos (- Z.of_nat (List.length (array self))));
      [now right; left|].
    destruct (Z_le_dec (Z.of_nat (List.length (array self))) pos);
      [now right; right|].
    destruct (getitem_inside self pos) as [e [_ He]]; [lia|].
    rewrite He in Hraise. discriminate.
  - apply getitem_outside.
  - intros E p. apply getitem_outside. now left.
  - intros e He. unfold __getitem__. unfold bind at 1. now rewrite He.
  - intros Hok.
    destruct (Z.eq_dec (Z.of_nat (List.length (array self))) 0) as [E|E].
    { rewrite index_error_handler_outside in Hok by now left. discriminate. }
    destruct (Z_lt_dec pos (- Z.of_nat (List.length (array self)))).
    { rewrite index_error_handler_outside in Hok by (right; now left).
      discriminate. }
    destruct (Z_le_dec (Z.of_nat (List.length (array self))) pos).
    { rewrite index_error_handler_outside in Hok by (right; now right).
      discriminate. }
    destruct (getitem_inside self pos) as [e [_ He]]; [lia|].
    now exists (value_of e).
Qed.

(** C6.  In a non-empty container whose positions fit a C [int], a
    negative position counts from the end: position [pos] in [-length, 0)
    reads the same element as position [length + pos], and [-1] reads the
    last one. *)
Theorem getitem_negative_position (self : Array) (pos : Z) :
  let n := Z.of_nat (List.length (array self)) in
  n <= 2147483647 ->
  - n <= pos < 0 ->
  (exists v, __getitem__ pos self = (Ok v, self)
             /\ __getitem__ (n + pos) self = (Ok v, self))
  /\ __getitem__ (-1) self = __getitem__ (n - 1) self.
Proof.
  intros n Hn Hpos. subst n.
  assert (Hgen : forall p, - Z.of_nat (List.length (array self)) <= p < 0 ->
            exists v, __getitem__ p self = (Ok v, self)
              /\ __getitem__ (Z.of_nat (List.length (array self)) + p) self
                 = (Ok v, self)).
  { intros p Hp.
    destruct (getitem_inside self p) as [e [He Hg]]; [lia|].
    destruct (getitem_inside self (Z.of_nat (List.length (array self)) + p))
      as [e' [He' Hg']]; [lia|].
    rewrite wrap_32_id in He
      by (unfold is_c_int; apply andb_true_intro; split; apply Z.leb_le; lia).
    rewrite wrap_32_id in He'
      by (unfold is_c_int; apply andb_true_intro; split; apply Z.leb_le; lia).
    unfold normalize in He, He'.
    destruct (Z.ltb_spec p 0); [|lia].
    destruct (Z.ltb_spec (Z.of_nat (List.length (array self)) + p) 0); [lia|].
    rewrite He in He'. injection He' as <-.
    exists (value_of e). now split. }
  split; [now apply Hgen|].
  destruct (Hgen (-1)) as [v [H1 H2]]; [lia|].
  rewrite H1.
  replace (Z.of_nat (List.length (array self)) - 1)
    with (Z.of_nat (List.length (array self)) + -1) by lia.
  now rewrite H2.
Qed.

(** ** Homogeneous containers *)

Lemma is_i_eq (tc : string) : is_i tc = true -> tc = "i"%string.
Proof. apply String.eqb_eq. Qed.

Lemma is_d_eq (tc : string) : is_d tc = true -> tc = "d"%string.
Proof. apply String.eqb_eq. Qed.

Lemma homogeneous_inv (self : Array) :
  homogeneous self = true ->
  (typecode self = "i"%string \/ typecode self = "d"%string)
  /\ (forall e, In e (array self) ->
        valid_element (typecode self) e = true).
Proof.
  unfold homogeneous. intros H.
  apply andb_prop in H. destruct H as [Htc Hall].
  split.
  - apply orb_prop in Htc. destruct Htc as [E|E].
    + left. now apply is_i_eq.
    + right. now apply is_d_eq.
  - intros e He. rewrite forallb_forall in Hall. now apply Hall.
Qed.

(** ** Removing one slot *)

Lemma removeAt_split (l : CArray) (i : nat) (e : Element) :
  nth_error l i = Some e ->
  exists before after,
    l = before ++ e :: after
    /\ List.length before = i
    /\ lib.removeAt l i = before ++ after.
Proof.
  revert i. induction l as [|x l IH]; intros [|i] H; try discriminate.
  - injection H as ->. now exists [], l.
  - cbn in H. destruct (IH i H) as [before [after [E [L R]]]].
    exists (x :: before), after. repeat split.
    + cbn. now f_equal.
    + cbn. now f_equal.
    + unfold lib.removeAt in *. cbn. now f_equal.
Qed.

(** X14.  On a homogeneous container and a position that fits a C [int],
    [pop] raises [IndexError] and leaves the object as it was when the
    position is out of bounds (on an empty container: always); when it is in
    bounds, [pop] returns the value [__getitem__] reads there, and the new
    content is the old one without that one element, the others in their
    order. *)
Theorem pop_spec (self : Array) (pos : Z) :
  let n := Z.of_nat (List.length (array self)) in
  homogeneous self = true ->
  is_c_int pos = true ->
  (pos < - n \/ n <= pos -> pop pos self = (Raise IndexError, self))
  /\ (- n <= pos < n ->
      exists before e after,
        array self = before ++ e :: after
        /\ List.length before = normalize n pos
        /\ __getitem__ pos self = (Ok (value_of e), self)
        /\ pop pos self
           = (Ok (value_of e),
              mkArray (before ++ after) (typecode self)
                (released self ++ [array self]))).
Proof.
  intros n Hhom Hpos. subst n.
  destruct (homogeneous_inv _ Hhom) as [Htc Hall].
  split.
  - intros Hout. unfold pop. run.
    rewrite (wrap_32_id _ Hpos).
    unfold lib.popLong, lib.popDouble.
    rewrite (checkIndex_outside _ _ Hout).
    destruct Htc as [-> | ->]; reflexivity.
  - intros Hin.
    destruct (getitem_inside self pos Hin) as [e [He Hg]].
    rewrite (wrap_32_id _ Hpos) in He.
    destruct (removeAt_split _ _ _ He) as [before [after [E [L R]]]].
    exists before, e, after. repeat split; try assumption.
    assert (Hv : valid_element (typecode self) e = true).
    { apply Hall. rewrite E. apply in_or_app. right. now left. }
    unfold pop. run.
    rewrite (wrap_32_id _ Hpos).
    unfold lib.popLong, lib.popDouble, lib.rawGet.
    rewrite (checkIndex_inside _ _ Hin), He, R.
    destruct self as [a tc rel]. cbn [array typecode released] in *.
    destruct Htc as [-> | ->]; destruct e; cbn in Hv;
      try discriminate; reflexivity.
Qed.

(** ** Removing by value *)




Lemma valid_element_cases (tc : string) (e : Element) :
  valid_element tc e = true ->
  (tc = "i"%string /\ exists z, e = et_long z /\ is_c_long z = true)
  \/ (tc = "d"%string /\ exists f, e = et_dbl f).
Proof.
  destruct e as [z|f]; cbn; intros H.
  - apply andb_prop in H. destruct H as [Hi Hz].
    left. split; [now apply is_i_eq|]. now exists z.
  - right. split; [now apply is_d_eq|]. now exists f.
Qed.




(** ** Inserting at a position *)






Lemma insert_run (self : Array) (pos : Z) (e : Element) :
  Z.of_nat (List.length (array self)) <= 2147483647 ->
  valid_element (typecode self) e = true ->
  0 <= pos <= Z.of_nat (List.length (array self)) ->
  insert pos (value_of e) self
  = (Ok tt,
     mkArray (spliced (array self) (Z.to_nat pos) e) (typecode self)
       (released self ++ [array self])).
Proof.
  intros Hlen Hv Hpos.
  assert (Hc : is_c_int pos = true).
  { unfold is_c_int. apply andb_true_intro. split; apply Z.leb_le; lia. }
  assert (Hb : (0 <=? pos) && (pos <=? Z.of_nat (List.length (array self)))
               = true).
  { apply andb_true_intro. split; apply Z.leb_le; lia. }
  destruct self as [a tc rel]. cbn [array typecode released] in *.
  unfold insert. run. rewrite (wrap_32_id _ Hc).
  unfold lib.insertLongAtPos, lib.insertDoubleAtPos, lib.insertAt.
  cbn [array typecode released]. rewrite Hb.
  destruct (valid_element_cases _ _ Hv) as [[-> [z [-> Hz]]] | [-> [f ->]]].
  - cbn [is_i is_d String.eqb Ascii.eqb Bool.eqb value_of].
    rewrite (wrap_64_id _ Hz). reflexivity.
  - reflexivity.
Qed.

Lemma append_run (self : Array) (e : Element) :
  valid_element (typecode self) e = true ->
  is_d (typecode self) = true \/ py_gt_int (value_of e) 2147483647 = false ->
  append (value_of e) self
  = (Ok tt, mkArray (array self ++ [e]) (typecode self) (released self)).
Proof.
  intros Hv Hr.
  destruct self as [a tc rel]. cbn [array typecode released] in *.
  unfold append, __insert_long, __insert_double, __overflow_error_handler.
  run.
  destruct (valid_element_cases _ _ Hv) as [[-> [z [-> Hz]]] | [-> [f ->]]].
  - destruct Hr as [Hr | Hr]; [discriminate|].
    cbn [array typecode released is_i is_d is_a String.eqb Ascii.eqb
           Bool.eqb value_of].
    cbn [value_of] in Hr. rewrite Hr, (wrap_64_id _ Hz). reflexivity.
  - reflexivity.
Qed.




(** ** The range check *)

Lemma overflow_error_handler_int (self : Array) (z : Z) :
  __overflow_error_handler (PyInt z) self
  = if 2147483647 <? z then (Raise OverflowError, self) else (Ok tt, self).
Proof.
  unfold __overflow_error_handler, py_gt_int.
  destruct (2147483647 <? z); reflexivity.
Qed.

(** C2.  The range check rejects an integer exactly when it is greater
    than 2147483647 and accepts every other integer, every negative one
    included.  On a Long container [append(2147483647)] succeeds and adds
    the element, and [append(2147483648)] raises [OverflowError] and leaves
    the object, its length and content, as it was. *)
Theorem long_range_check (self : Array) :
  typecode self = "i"%string ->
  (forall z, __overflow_error_handler (PyInt z) self
             = (Raise OverflowError, self) <-> 2147483647 < z)
  /\ (forall z, z <= 2147483647 ->
        __overflow_error_handler (PyInt z) self = (Ok tt, self))
  /\ (forall z, z < 0 ->
        __overflow_error_handler (PyInt z) self = (Ok tt, self))
  /\ append (PyInt 2147483647) self
     = (Ok tt,
        mkArray (array self ++ [et_long 2147483647]) (typecode self)
          (released self))
  /\ append (PyInt 2147483648) self = (Raise OverflowError, self).
Proof.
  intros Htc.
  assert (Hacc : forall z, z <= 2147483647 ->
            __overflow_error_handler (PyInt z) self = (Ok tt, self)).
  { intros z Hz. rewrite overflow_error_handler_int.
    destruct (Z.ltb_spec 2147483647 z); [lia|reflexivity]. }
  split; [|split; [|split; [|split]]].
  - intros z. rewrite overflow_error_handler_int.
    destruct (Z.ltb_spec 2147483647 z); split; intros H0;
      try reflexivity; try discriminate; lia.
  - exact Hacc.
  - intros z Hz. apply Hacc. lia.
  - destruct self as [a tc rel]. cbn [array typecode released] in *.
    subst tc. reflexivity.
  - destruct self as [a tc rel]. cbn [array typecode released] in *.
    subst tc. reflexivity.
Qed.

(** C9.  [__setitem__] runs the Long range check whatever the type code:
    on a Double container, with a position that passes the index check, an
    integer greater than 2147483647 raises [OverflowError] and the object is
    left as it was; [append] on the same container runs no range check and
    stores the integer as a double, 2147483648 for one. *)
Theorem setitem_double_range_check (self : Array) (key v : Z) :
  let n := Z.of_nat (List.length (array self)) in
  typecode self = "d"%string ->
  - n <= key < n ->
  2147483647 < v ->
  __setitem__ key (PyInt v) self = (Raise OverflowError, self)
  /\ (forall f, ctypes.c_double (PyInt v) = Ok f ->
        append (PyInt v) self
        = (Ok tt,
           mkArray (array self ++ [et_dbl f]) (typecode self)
             (released self)))
  /\ append (PyInt 2147483648) self
     = (Ok tt,
        mkArray (array self ++ [et_dbl 2147483648]) (typecode self)
          (released self)).
Proof.
  intros n Htc Hkey Hv. subst n.
  split; [|split].
  - unfold __setitem__. unfold bind at 1.
    rewrite (index_error_handler_inside _ _ Hkey).
    unfold bind at 1. rewrite overflow_error_handler_int.
    destruct (Z.ltb_spec 2147483647 v); [reflexivity|lia].
  - intros f Hf.
    destruct self as [a tc rel]. cbn [array typecode released] in *.
    subst tc. unfold append, __insert_double. run.
    cbn [array typecode released is_i is_d is_a String.eqb Ascii.eqb
           Bool.eqb].
    rewrite Hf. reflexivity.
  - destruct self as [a tc rel]. cbn [array typecode released] in *.
    subst tc. reflexivity.
Qed.

(** C1.  [insert] runs no range check: on an empty Long container,
    [insert(0, 2147483648)] returns normally and the value is in storage
    afterwards, where [__getitem__] reads it back, while [append] and
    [__setitem__] raise [OverflowError] for the same value. *)
Theorem insert_skips_range_check :
  exists self stored,
    __init__ "i" None = Ok self
    /\ insert 0 (PyInt 2147483648) self = (Ok tt, stored)
    /\ array stored = [et_long 2147483648]
    /\ __getitem__ 0 stored = (Ok (PyInt 2147483648), stored)
    /\ append (PyInt 2147483648) self = (Raise OverflowError, self)
    /\ __setitem__ 0 (PyInt 2147483648) stored
       = (Raise OverflowError, stored).
Proof.
  exists (mkArray [] "i" []), (mkArray [et_long 2147483648] "i" [[]]).
  repeat split.
Qed.

(** ** Binary search *)

(** The loop on a Long container ends within the fuel [binarySearchLong]
    gives it; on content in ascending order it returns an index that holds
    the target, or -1 when no index of the interval holds it. *)
Lemma bsearch_long_spec (xs : list Z) (target : Z) (fuel : nat) :
  forall low high,
    0 <= low -> high <= Z.of_nat (List.length xs) ->
    (Z.to_nat (high - low) < fuel)%nat ->
    (forall i j x y, (i <= j)%nat -> nth_error xs i = Some x ->
                     nth_error xs j = Some y -> x <= y) ->
    exists r,
      lib.bsearch lib.long_cmp fuel xs target low high = Some r
      /\ ((r = -1 /\ forall i, low <= i < high ->
                       nth_error xs (Z.to_nat i) <> Some target)
          \/ (low <= r < high /\ nth_error xs (Z.to_nat r) = Some target)).
Proof.
  induction fuel as [|fuel IH]; intros low high Hlow Hhigh Hfuel Hsorted;
    [lia|].
  cbn [lib.bsearch].
  destruct (Z.leb_spec high low) as [Hempty|Hne].
  { exists (-1). split; [reflexivity|]. left. split; [reflexivity|]. lia. }
  set (mid := low + (high - low) / 2).
  assert (Hmid : low <= mid < high).
  { subst mid. Z.div_mod_to_equations. lia. }
  destruct (nth_error_inside xs (Z.to_nat mid)) as [x Hx]; [lia|].
  rewrite Hx. unfold lib.long_cmp at 1.
  destruct (Z.compare_spec target x) as [Heq|Hlt|Hgt].
  - exists mid. split; [reflexivity|]. right. split; [lia|]. now subst.
  - destruct (IH low mid) as [r [Hr Hcases]]; try lia; try assumption.
    exists r. split; [exact Hr|].
    destruct Hcases as [[-> Habsent]|[Hrange Hfound]].
    + left. split; [reflexivity|]. intros i Hi Hi'.
      destruct (Z_lt_dec i mid) as [Hlo|Hhi].
      * apply (Habsent i); [lia|exact Hi'].
      * pose proof (Hsorted (Z.to_nat mid) (Z.to_nat i) x target) as Hle.
        specialize (Hle ltac:(lia) Hx Hi'). lia.
    + right. split; [lia|exact Hfound].
  - destruct (IH (mid + 1) high) as [r [Hr Hcases]]; try lia; try assumption.
    exists r. split; [exact Hr|].
    destruct Hcases as [[-> Habsent]|[Hrange Hfound]].
    + left. split; [reflexivity|]. intros i Hi Hi'.
      destruct (Z_le_dec i mid) as [Hlo|Hhi].
      * pose proof (Hsorted (Z.to_nat i) (Z.to_nat mid) target x) as Hle.
        specialize (Hle ltac:(lia) Hi' Hx). lia.
      * apply (Habsent i); [lia|exact Hi'].
    + right. split; [lia|exact Hfound].
Qed.

Lemma payloads_long (xs : list Z) :
  lib.payloads lib.long_of (map et_long xs) = Some xs.
Proof.
  induction xs as [|x xs IH]; cbn; [reflexivity|]. now rewrite IH.
Qed.

(** On a Long container in ascending order [binarySearchLong] returns an
    index of the target when the target is present and -1 when it is
    not. *)
Lemma binarySearchLong_sorted (xs : list Z) (target : Z) :
  (forall i j x y, (i <= j)%nat -> nth_error xs i = Some x ->
                   nth_error xs j = Some y -> x <= y) ->
  exists r,
    lib.binarySearchLong (map et_long xs) target = Some r
    /\ ((r = -1 /\ ~ In target xs)
        \/ (0 <= r < Z.of_nat (List.length xs)
            /\ nth_error xs (Z.to_nat r) = Some target)).
Proof.
  intros Hsorted. unfold lib.binarySearchLong. rewrite payloads_long.
  destruct (bsearch_long_spec xs target (S (List.length xs)) 0
              (Z.of_nat (List.length xs))) as [r [Hr Hcases]];
    try lia; try assumption.
  exists r. split; [exact Hr|].
  destruct Hcases as [[-> Habsent]|Hfound]; [left|now right].
  split; [reflexivity|]. intros Hin.
  apply In_nth_error in Hin. destruct Hin as [i Hi].
  assert (Hlt : (i < List.length xs)%nat).
  { apply nth_error_Some. rewrite Hi. discriminate. }
  apply (Habsent (Z.of_nat i)); [lia|]. now rewrite Nat2Z.id.
Qed.

(** C7.  On the Long container built from [1, 3, 5, 7, 9], [search]
    returns 2 for 5, 0 for 1 and 4 for 9; for 4, which is absent, the
    library's binary search returns -1 and [search] turns it into
    [ValueError]. *)
Theorem search_examples :
  exists self,
    __init__ "i" (Some (map PyInt [1; 3; 5; 7; 9])) = Ok self
    /\ array self = map et_long [1; 3; 5; 7; 9]
    /\ search (PyInt 5) self = (Ok 2, self)
    /\ search (PyInt 1) self = (Ok 0, self)
    /\ search (PyInt 9) self = (Ok 4, self)
    /\ lib.binarySearchLong (array self) 4 = Some (-1)
    /\ search (PyInt 4) self = (Raise ValueError, self).
Proof.
  exists (mkArray (map et_long [1; 3; 5; 7; 9]) "i" []).
  repeat split.
Qed.

(** ** Equality *)

Lemma eq_loop_agree (self : Array) (other : list pyval) (indices : list nat) :
  (forall i, In i indices ->
     exists x y,
       __getitem__ (Z.of_nat i) self = (Ok x, self)
       /\ nth_error other i = Some y
       /\ py_ne x y = false) ->
  eq_loop indices other self = (Ok true, self).
Proof.
  induction indices as [|i rest IH]; intros H; [reflexivity|].
  destruct (H i (or_introl eq_refl)) as [x [y [Hx [Hy Hne]]]].
  cbn [eq_loop]. unfold bind at 1. rewrite Hx.
  unfold bind at 1. rewrite Hy. unfold ret at 1. rewrite Hne.
  apply IH. intros j Hj. apply H. now right.
Qed.

Lemma getitem_nat (self : Array) (i : nat) (e : Element) :
  Z.of_nat (List.length (array self)) <= 2147483647 ->
  nth_error (array self) i = Some e ->
  __getitem__ (Z.of_nat i) self = (Ok (value_of e), self).
Proof.
  intros Hlen He.
  assert (Hi : (i < List.length (array self))%nat).
  { apply nth_error_Some. rewrite He. discriminate. }
  destruct (getitem_inside self (Z.of_nat i)) as [e' [He' Hg]]; [lia|].
  rewrite wrap_32_id in He'
    by (unfold is_c_int; apply andb_true_intro; split; apply Z.leb_le; lia).
  unfold normalize in He'.
  destruct (Z.ltb_spec (Z.of_nat i) 0); [lia|].
  rewrite Nat2Z.id in He'. rewrite He in He'. injection He' as <-.
  exact Hg.
Qed.

(** C10.  [__eq__] looks only at the indices below [len(self)]: when
    [other] holds, at each of them, a value that is not [!=] to the
    container's, the result is [True], whatever [other] holds beyond them;
    an empty container is equal to every sequence. *)
Theorem eq_compares_own_length (self : Array) (other : list pyval) :
  ((forall i, (i < List.length (array self))%nat ->
      exists x y,
        __getitem__ (Z.of_nat i) self = (Ok x, self)
        /\ nth_error other i = Some y
        /\ py_ne x y = false) ->
   __eq__ other self = (Ok true, self))
  /\ (Z.of_nat (List.length (array self)) <= 2147483647 ->
      (forall i e, nth_error (array self) i = Some e ->
         exists y, nth_error other i = Some y
                   /\ py_ne (value_of e) y = false) ->
      forall extra, __eq__ (other ++ extra) self = (Ok true, self))
  /\ (array self = [] -> __eq__ other self = (Ok true, self)).
Proof.
  assert (Hmain : forall o,
    (forall i, (i < List.length (array self))%nat ->
      exists x y,
        __getitem__ (Z.of_nat i) self = (Ok x, self)
        /\ nth_error o i = Some y
        /\ py_ne x y = false) ->
    __eq__ o self = (Ok true, self)).
  { intros o H. unfold __eq__. run. rewrite Nat2Z.id.
    apply eq_loop_agree. intros i Hi. apply H.
    apply in_seq in Hi. lia. }
  split; [apply Hmain|split].
  - intros Hlen H extra. apply Hmain. intros i Hi.
    destruct (nth_error_inside (array self) i Hi) as [e He].
    destruct (H i e He) as [y [Hy Hne]].
    exists (value_of e), y. split; [now apply getitem_nat|].
    split; [|exact Hne].
    rewrite nth_error_app1; [exact Hy|].
    apply nth_error_Some. rewrite Hy. discriminate.
  - intros Hempty. apply Hmain. rewrite Hempty. cbn. intros i Hi. lia.
Qed.

(** ** The theorems at concrete containers *)

Lemma long_range_check_witness :
  let self := mkArray [et_long 1] "i" [] in
  typecode self = "i"%string
  /\ append (PyInt 2147483647) self
     = (Ok tt, mkArray [et_long 1; et_long 2147483647] "i" [])
  /\ append (PyInt 2147483648) self = (Raise OverflowError, self)
  /\ __overflow_error_handler (PyInt (-9223372036854775809)) self
     = (Ok tt, self).
Proof.
  cbv zeta. split; [reflexivity|].
  destruct (long_range_check (mkArray [et_long 1] "i" []) eq_refl)
    as [_ [_ [Hneg [Hmax Hover]]]].
  split; [exact Hmax|]. split; [exact Hover|].
  apply Hneg. reflexivity.
Defined.

Lemma pop_spec_witness :
  let self := mkArray [et_long 10; et_long 20; et_long 30] "i" [] in
  homogeneous self = true
  /\ is_c_int (-1) = true
  /\ is_c_int 3 = true
  /\ pop 3 self = (Raise IndexError, self)
  /\ exists before e after,
       array self = before ++ e :: after
       /\ List.length before = 2%nat
       /\ pop (-1) self
          = (Ok (value_of e), mkArray (before ++ after) "i" [array self]).
Proof.
  cbv zeta. split; [reflexivity|]. split; [reflexivity|].
  split; [reflexivity|]. split.
  - apply (pop_spec (mkArray [et_long 10; et_long 20; et_long 30] "i" [])
             3 eq_refl eq_refl).
    right. cbn. lia.
  - destruct (pop_spec (mkArray [et_long 10; et_long 20; et_long 30] "i" [])
                (-1) eq_refl eq_refl) as [_ Hin].
    destruct Hin as [before [e [after [E [L [_ P]]]]]]; [cbn; lia|].
    exists before, e, after. split; [exact E|]. split; [exact L|exact P].
Defined.


Lemma getitem_negative_position_witness :
  let self := mkArray [et_long 10; et_long 20; et_long 30] "i" [] in
  Z.of_nat (List.length (array self)) <= 2147483647
  /\ - Z.of_nat (List.length (array self)) <= -2 < 0
  /\ (exists v, __getitem__ (-2) self = (Ok v, self)
                /\ __getitem__ 1 self = (Ok v, self))
  /\ __getitem__ (-1) self = __getitem__ 2 self.
Proof.
  cbv zeta.
  assert (H1 : Z.of_nat (List.length
                 (array (mkArray [et_long 10; et_long 20; et_long 30] "i" [])))
               <= 2147483647) by (cbn; lia).
  assert (H2 : - Z.of_nat (List.length
                 (array (mkArray [et_long 10; et_long 20; et_long 30] "i" [])))
               <= -2 < 0) by (cbn; lia).
  split; [exact H1|]. split; [exact H2|].
  exact (getitem_negative_position
           (mkArray [et_long 10; et_long 20; et_long 30] "i" []) (-2) H1 H2).
Defined.


Lemma setitem_double_range_check_witness :
  let self := mkArray [et_dbl 1.5] "d" [] in
  typecode self = "d"%string
  /\ - Z.of_nat (List.length (array self)) <= 0
     < Z.of_nat (List.length (array self))
  /\ 2147483647 < 2147483648
  /\ __setitem__ 0 (PyInt 2147483648) self = (Raise OverflowError, self)
  /\ append (PyInt 2147483648) self
     = (Ok tt, mkArray [et_dbl 1.5; et_dbl 2147483648] "d" []).
Proof.
  cbv zeta.
  assert (H1 : - Z.of_nat (List.length (array (mkArray [et_dbl 1.5] "d" [])))
               <= 0
               < Z.of_nat (List.length (array (mkArray [et_dbl 1.5] "d" []))))
    by (cbn; lia).
  assert (H2 : 2147483647 < 2147483648) by lia.
  split; [reflexivity|]. split; [exact H1|]. split; [exact H2|].
  destruct (setitem_double_range_check (mkArray [et_dbl 1.5] "d" [])
              0 2147483648 eq_refl H1 H2) as [Hset [_ Happ]].
  split; [exact Hset|exact Happ].
Defined.

Lemma eq_compares_own_length_witness :
  let self := mkArray [et_long 1; et_long 2] "i" [] in
  __eq__ [PyInt 1; PyFloat 2; PyInt 3] self = (Ok true, self)
  /\ __eq__ [PyFloat 0.5; PyInt 7]
       (mkArray [] "d" []) = (Ok true, mkArray [] "d" []).
Proof.
  cbv zeta. split.
  - apply (proj1 (eq_compares_own_length
                    (mkArray [et_long 1; et_long 2] "i" [])
                    [PyInt 1; PyFloat 2; PyInt 3])).
    intros [|[|i]] Hi.
    + exists (PyInt 1), (PyInt 1). repeat split.
    + exists (PyInt 2), (PyFloat 2). repeat split.
    + cbn in Hi. lia.
  - apply (proj2 (proj2 (eq_compares_own_length (mkArray [] "d" [])
                           [PyFloat 0.5; PyInt 7]))).
    reflexivity.
Defined.

(** ** What the methods leave alone *)

Lemma getitem_keeps_self (self : Array) (pos : Z) :
  snd (__getitem__ pos self) = self.
Proof.
  expose. repeat (break_match; cbn [fst snd]); reflexivity.
Qed.

Lemma eq_loop_keeps_self (self : Array) (other : list pyval)
    (indices : list nat) :
  snd (eq_loop indices other self) = self.
Proof.
  induction indices as [|i rest IH]; [reflexivity|].
  cbn [eq_loop]. unfold bind at 1.
  pose proof (getitem_keeps_self self (Z.of_nat i)) as Hg.
  destruct (__getitem__ (Z.of_nat i) self) as [[x|e|] s]; cbn [snd] in Hg;
    subst s; try reflexivity.
  unfold bind at 1.
  destruct (nth_error other i) as [y|]; [|reflexivity].
  unfold ret at 1. destruct (py_ne x y); [reflexivity|exact IH].
Qed.

(** X1.  The reading methods never touch the object: whatever [__len__],
    [__getitem__], [search] and [__eq__] return or raise, the buffer, the
    type code and the trace of released buffers are as before the call. *)
Theorem readers_keep_self (self : Array) (pos : Z) (arg : pyval)
    (other : list pyval) :
  snd (__len__ self) = self
  /\ snd (__getitem__ pos self) = self
  /\ snd (search arg self) = self
  /\ snd (__eq__ other self) = self.
Proof.
  split; [reflexivity|]. split; [apply getitem_keeps_self|]. split.
  - expose. repeat (break_match; cbn [fst snd]); reflexivity.
  - unfold __eq__. run. apply eq_loop_keeps_self.
Qed.

(** X2.  With arguments of the declared types (an integer position, an
    integer or float value), a mutating method that raises has changed
    nothing: after an exception from [append], [__setitem__], [pop],
    [remove] or [insert] the object is exactly as it was before the call, no
    buffer released and no element written. *)
Theorem raise_keeps_self (self : Array) (pos : Z) (arg : pyval) (e : exn) :
  (fst (append arg self) = Raise e -> snd (append arg self) = self)
  /\ (fst (__setitem__ pos arg self) = Raise e ->
      snd (__setitem__ pos arg self) = self)
  /\ (fst (pop pos self) = Raise e -> snd (pop pos self) = self)
  /\ (fst (remove arg self) = Raise e -> snd (remove arg self) = self)
  /\ (fst (insert pos arg self) = Raise e -> snd (insert pos arg self) = self).
Proof.
  repeat split; expose;
    repeat (break_match; cbn [fst snd]);
    intros H; try discriminate H; reflexivity.
Qed.

(** X3.  Releasing follows replacing: a [pop], [remove] or [insert] that
    returns has handed the old buffer to [lib.freeArray] exactly once, as the
    last release, before [self.array] was replaced; an [append] or
    [__setitem__] that returns has released nothing.  No method changes the
    type code. *)
Theorem release_accounting (self : Array) (pos : Z) (arg : pyval) :
  (forall v s', pop pos self = (Ok v, s') ->
     released s' = released self ++ [array self]
     /\ typecode s' = typecode self)
  /\ (forall s', remove arg self = (Ok tt, s') ->
        released s' = released self ++ [array self]
        /\ typecode s' = typecode self)
  /\ (forall s', insert pos arg self = (Ok tt, s') ->
        released s' = released self ++ [array self]
        /\ typecode s' = typecode self)
  /\ (forall s', append arg self = (Ok tt, s') ->
        released s' = released self /\ typecode s' = typecode self)
  /\ (forall s', __setitem__ pos arg self = (Ok tt, s') ->
        released s' = released self /\ typecode s' = typecode self).
Proof.
  repeat split; revert H; expose;
    repeat (break_match; cbn [fst snd]);
    intros H; try discriminate H; inversion H; subst; reflexivity.
Qed.

(** X4.  The exceptions a method can raise: [insert] validates nothing
    itself and can only fail in the conversion of its arguments
    ([ArgumentError]), never with [IndexError] or [OverflowError]; [pop]
    raises [IndexError] or, with no result object, [AttributeError];
    [remove] and [search] raise [ValueError] or [ArgumentError]; [append]
    raises [TypeError], [OverflowError] or [ArgumentError]; [__setitem__]
    raises [IndexError], [OverflowError] or [ArgumentError]. *)
Theorem raised_exceptions (self : Array) (pos : Z) (arg : pyval) (e : exn) :
  (fst (insert pos arg self) = Raise e -> e = ArgumentError)
  /\ (fst (pop pos self) = Raise e -> e = IndexError \/ e = AttributeError)
  /\ (fst (remove arg self) = Raise e ->
      e = ValueError \/ e = ArgumentError)
  /\ (fst (search arg self) = Raise e ->
      e = ValueError \/ e = ArgumentError)
  /\ (fst (append arg self) = Raise e ->
      e = TypeError \/ e = OverflowError \/ e = ArgumentError)
  /\ (fst (__setitem__ pos arg self) = Raise e ->
      e = IndexError \/ e = OverflowError \/ e = ArgumentError).
Proof.
  repeat split; expose; unfold ctypes.c_long, ctypes.c_double;
    destruct arg;
    repeat (break_match; cbn [fst snd]);
    intros H; try discriminate H; injection H as <-; auto.
Qed.

(** ** The constructor *)

Lemma is_i_neq (tc : string) : tc <> "i"%string -> is_i tc = false.
Proof. intros H. now apply String.eqb_neq. Qed.

Lemma is_d_neq (tc : string) : tc <> "d"%string -> is_d tc = false.
Proof. intros H. now apply String.eqb_neq. Qed.

Lemma is_a_neq (tc : string) : tc <> "a"%string -> is_a tc = false.
Proof. intros H. now apply String.eqb_neq. Qed.

Lemma append_keeps_fields (self s' : Array) (arg : pyval) (o : outcome unit) :
  append arg self = (o, s') ->
  typecode s' = typecode self /\ released s' = released self.
Proof.
  expose. repeat (break_match; cbn [fst snd]);
    intros H; inversion H; subst; split; reflexivity.
Qed.

Lemma for_each_append_keeps_fields (l : list pyval) :
  forall self s' o,
    for_each append l self = (o, s') ->
    typecode s' = typecode self /\ released s' = released self.
Proof.
  induction l as [|x l IH]; intros self s' o H.
  - cbn in H. unfold ret in H. inversion H. now split.
  - cbn [for_each] in H. unfold bind in H.
    destruct (append x self) as [[u|e|] s1] eqn:Ea;
      destruct (append_keeps_fields _ _ _ _ Ea) as [Ht Hr].
    + destruct (IH _ _ _ H) as [Ht' Hr']. split; congruence.
    + inversion H; subst. now split.
    + inversion H; subst. now split.
Qed.

(** X5.  [__init__] checks the type code before anything else: a type code
    other than "i", "d" and "a" raises [TypeError] whatever the initializer;
    an object that is constructed carries the type code it was given and has
    released no buffer; with an accepted type code, no initializer and an
    empty list both give the container [lib.initArray] creates. *)
Theorem init_typecode (tc : string) (initializer : option (list pyval)) :
  (tc <> "i"%string -> tc <> "d"%string -> tc <> "a"%string ->
   __init__ tc initializer = Raise TypeError)
  /\ (forall self, __init__ tc initializer = Ok self ->
        (tc = "i"%string \/ tc = "d"%string \/ tc = "a"%string)
        /\ typecode self = tc /\ released self = [])
  /\ (tc = "i"%string \/ tc = "d"%string \/ tc = "a"%string ->
      __init__ tc None = Ok (mkArray (lib.initArray 1) tc [])
      /\ __init__ tc (Some []) = __init__ tc None).
Proof.
  split; [|split].
  - intros Hi Hd Ha. unfold __init__.
    now rewrite (is_i_neq _ Hi), (is_d_neq _ Hd), (is_a_neq _ Ha).
  - intros self. unfold __init__.
    destruct (is_i tc || is_d tc || is_a tc) eqn:E; cbn [negb];
      [|discriminate].
    assert (Htc : tc = "i"%string \/ tc = "d"%string \/ tc = "a"%string).
    { apply orb_prop in E. destruct E as [E|E];
        [apply orb_prop in E; destruct E as [E|E]|].
      - left. now apply String.eqb_eq.
      - right. left. now apply String.eqb_eq.
      - right. right. now apply String.eqb_eq. }
    destruct initializer as [[|x l]|].
    + intros H. inversion H. now split.
    + unfold bind, set_array. cbn [typecode released].
      destruct (for_each append (x :: l)
                  (mkArray (lib.initArray (Z.of_nat (List.length (x :: l))))
                     tc [])) as [[u|e|] s1] eqn:Ef;
        intros H; inversion H; subst.
      destruct (for_each_append_keeps_fields _ _ _ _ Ef) as [Ht Hr].
      now split.
    + intros H. inversion H. now split.
  - intros [-> | [-> | ->]]; split; reflexivity.
Qed.

Lemma for_each_append_long (zs : list Z) :
  forall a rel,
    (forall z, In z zs -> is_c_long z = true /\ z <= 2147483647) ->
    for_each append (map PyInt zs) (mkArray a "i" rel)
    = (Ok tt, mkArray (a ++ map et_long zs) "i" rel).
Proof.
  induction zs as [|z zs IH]; intros a rel H.
  - cbn. unfold ret. now rewrite app_nil_r.
  - cbn [map for_each]. unfold bind at 1.
    destruct (H z (or_introl eq_refl)) as [Hz Hmax].
    assert (Ha : append (PyInt z) (mkArray a "i" rel)
                 = (Ok tt, mkArray (a ++ [et_long z]) "i" rel)).
    { apply (append_run (mkArray a "i" rel) (et_long z)).
      - cbn. now rewrite Hz.
      - right. cbn. apply Z.ltb_ge. lia. }
    rewrite Ha, IH by (intros z' Hz'; apply H; now right).
    now rewrite <- app_assoc.
Qed.

Lemma for_each_append_stops (zs : list Z) (bad : pyval) (rest : list pyval)
    (e : exn) :
  forall a rel,
    (forall z, In z zs -> is_c_long z = true /\ z <= 2147483647) ->
    (forall s, typecode s = "i"%string -> append bad s = (Raise e, s)) ->
    fst (for_each append (map PyInt zs ++ bad :: rest) (mkArray a "i" rel))
    = Raise e.
Proof.
  induction zs as [|z zs IH]; intros a rel H Hbad.
  - cbn [map app for_each]. unfold bind at 1.
    now rewrite Hbad.
  - cbn [map app for_each]. unfold bind at 1.
    destruct (H z (or_introl eq_refl)) as [Hz Hmax].
    assert (Ha : append (PyInt z) (mkArray a "i" rel)
                 = (Ok tt, mkArray (a ++ [et_long z]) "i" rel)).
    { apply (append_run (mkArray a "i" rel) (et_long z)).
      - cbn. now rewrite Hz.
      - right. cbn. apply Z.ltb_ge. lia. }
    rewrite Ha. apply IH; [|exact Hbad]. intros z' Hz'. apply H. now right.
Qed.

Lemma init_long_run (l : list pyval) :
  __init__ "i" (Some l)
  = match for_each append l (mkArray [] "i" []) with
    | (Ok _, self') => Ok self'
    | (Raise e, _) => Raise e
    | (Unspecified, _) => Unspecified
    end.
Proof. destruct l; reflexivity. Qed.

(** X6.  On type code "i" the constructor stores an initializer of integers
    that pass the range check, in order: the new container has one element
    per item and [__len__] counts them.  It fails as a whole at the first
    item [append] rejects, with [OverflowError] for an integer above
    2147483647 and [TypeError] for a float, and no object is built. *)
Theorem init_long_initializer (zs : list Z) :
  (forall z, In z zs -> is_c_long z = true /\ z <= 2147483647) ->
  (exists self,
      __init__ "i" (Some (map PyInt zs)) = Ok self
      /\ array self = map et_long zs
      /\ __len__ self = (Ok (Z.of_nat (List.length zs)), self))
  /\ (forall z rest, 2147483647 < z ->
        __init__ "i" (Some (map PyInt zs ++ PyInt z :: rest))
        = Raise OverflowError)
  /\ (forall f rest,
        __init__ "i" (Some (map PyInt zs ++ PyFloat f :: rest))
        = Raise TypeError).
Proof.
  intros H. split; [|split].
  - exists (mkArray (map et_long zs) "i" []).
    rewrite init_long_run, (for_each_append_long zs [] [] H).
    split; [reflexivity|]. split; [reflexivity|].
    unfold __len__. run. cbn [array]. now rewrite length_map.
  - intros z rest Hz. rewrite init_long_run.
    pose proof (for_each_append_stops zs (PyInt z) rest OverflowError [] [] H)
      as Hstop.
    destruct (for_each append (map PyInt zs ++ PyInt z :: rest)
                (mkArray [] "i" [])) as [o s].
    cbn [fst] in Hstop. rewrite Hstop; [reflexivity|].
    intros s0 Hs0. destruct s0 as [a tc rel]. cbn in Hs0. subst tc.
    expose. cbn [is_a is_i String.eqb Ascii.eqb Bool.eqb py_gt_int].
    destruct (Z.ltb_spec 2147483647 z); [reflexivity|lia].
  - intros f rest. rewrite init_long_run.
    pose proof (for_each_append_stops zs (PyFloat f) rest TypeError [] [] H)
      as Hstop.
    destruct (for_each append (map PyInt zs ++ PyFloat f :: rest)
                (mkArray [] "i" [])) as [o s].
    cbn [fst] in Hstop. rewrite Hstop; [reflexivity|].
    intros s0 Hs0. destruct s0 as [a tc rel]. cbn in Hs0. subst tc.
    reflexivity.
Qed.

(** ** Checks before writing *)

(** X7.  [__setitem__] checks the position first and the value second,
    whatever the type code and whether the value is an integer or a float:
    a position outside the container raises [IndexError] even for a value
    the range check would reject, and at a position inside it a value
    greater than 2147483647 raises [OverflowError]; the object stays as it
    was in both cases. *)
Theorem setitem_check_order (self : Array) (key : Z) (value : pyval) :
  let n := Z.of_nat (List.length (array self)) in
  (n = 0 \/ key < - n \/ n <= key ->
   __setitem__ key value self = (Raise IndexError, self))
  /\ (- n <= key < n ->
      py_gt_int value 2147483647 = true ->
      __setitem__ key value self = (Raise OverflowError, self)).
Proof.
  intros n. subst n. split.
  - intros H. unfold __setitem__. unfold bind at 1.
    now rewrite (index_error_handler_outside _ _ H).
  - intros H Hgt. unfold __setitem__. unfold bind at 1.
    rewrite (index_error_handler_inside _ _ H).
    unfold bind at 1. unfold __overflow_error_handler.
    now rewrite Hgt.
Qed.

(** X8.  [append] on type code "i" checks the type before the range: every
    float raises [TypeError], also one above 2147483647; an integer above
    2147483647 raises [OverflowError]; any other integer that fits a C long
    is written after the last element, and the length grows by one.  A
    rejected value changes nothing. *)
Theorem append_long_outcome (self : Array) :
  typecode self = "i"%string ->
  (forall f, append (PyFloat f) self = (Raise TypeError, self))
  /\ (forall z, 2147483647 < z ->
        append (PyInt z) self = (Raise OverflowError, self))
  /\ (forall z, is_c_long z = true -> z <= 2147483647 ->
        append (PyInt z) self
        = (Ok tt,
           mkArray (array self ++ [et_long z]) "i" (released self))
        /\ List.length (array self ++ [et_long z])
           = S (List.length (array self))).
Proof.
  intros Htc. destruct self as [a tc rel]. cbn in Htc. subst tc.
  split; [|split].
  - reflexivity.
  - intros z Hz. expose.
    cbn [is_a is_i String.eqb Ascii.eqb Bool.eqb py_gt_int].
    destruct (Z.ltb_spec 2147483647 z); [reflexivity|lia].
  - intros z Hz Hmax. split.
    + apply (append_run (mkArray a "i" rel) (et_long z)).
      * cbn. now rewrite Hz.
      * right. cbn. apply Z.ltb_ge. lia.
    + cbn [array]. rewrite length_app. cbn. lia.
Qed.

(** X9.  [append] on type code "d" accepts both integers and floats and
    runs no range check on them: every float is written as it is after the
    last element, an integer is written as the double ctypes converts it to,
    and for an integer or a float the only exception is the [ArgumentError]
    of that conversion. *)
Theorem append_double_outcome (self : Array) :
  typecode self = "d"%string ->
  (forall f,
      append (PyFloat f) self
      = (Ok tt, mkArray (array self ++ [et_dbl f]) "d" (released self)))
  /\ (forall z f, ctypes.c_double (PyInt z) = Ok f ->
        append (PyInt z) self
        = (Ok tt, mkArray (array self ++ [et_dbl f]) "d" (released self)))
  /\ (forall arg e, fst (append arg self) = Raise e -> e = ArgumentError).
Proof.
  intros Htc. destruct self as [a tc rel]. cbn in Htc. subst tc.
  split; [|split].
  - reflexivity.
  - intros z f Hf. expose.
    cbn [is_a is_i is_d String.eqb Ascii.eqb Bool.eqb].
    now rewrite Hf.
  - intros arg e. expose. unfold ctypes.c_double.
    cbn [is_a is_i is_d String.eqb Ascii.eqb Bool.eqb].
    destruct arg; repeat (break_match; cbn [fst snd]);
      intros H; try discriminate H; now injection H as <-.
Qed.

(** X10.  On type code "a" no method but [append] has a branch: [pop] finds
    no result object and raises [AttributeError], [search] raises
    [ValueError] for every value, [__setitem__] stores nothing once its two
    checks have passed, and [remove] and [insert] release the buffer and
    replace it by the fresh array [lib.initArray] made, whatever their
    arguments, so the content is lost. *)
Theorem mixed_typecode (self : Array) :
  typecode self = "a"%string ->
  (forall pos, pop pos self = (Raise AttributeError, self))
  /\ (forall arg, search arg self = (Raise ValueError, self))
  /\ (forall arg,
        remove arg self
        = (Ok tt,
           mkArray (lib.initArray 1) "a" (released self ++ [array self])))
  /\ (forall pos arg,
        insert pos arg self
        = (Ok tt,
           mkArray (lib.initArray 1) "a" (released self ++ [array self])))
  /\ (forall key value,
        - Z.of_nat (List.length (array self)) <= key
          < Z.of_nat (List.length (array self)) ->
        py_gt_int value 2147483647 = false ->
        __setitem__ key value self = (Ok tt, self)).
Proof.
  intros Htc. destruct self as [a tc rel]. cbn in Htc. subst tc.
  split; [|split; [|split; [|split]]]; try reflexivity.
  intros key value Hkey Hle. unfold __setitem__. unfold bind at 1.
  rewrite (index_error_handler_inside _ _ Hkey).
  unfold bind at 1. unfold __overflow_error_handler. rewrite Hle.
  reflexivity.
Qed.

(** X11.  On type code "i" every method that hands a value to the library
    as a C long rejects a float in the conversion: [insert], [remove] and
    [search] raise [ArgumentError], and so does [__setitem__] once the
    position and the range check have passed; the object stays as it
    was. *)
Theorem long_container_rejects_float (self : Array) (f : float) :
  typecode self = "i"%string ->
  (forall pos, insert pos (PyFloat f) self = (Raise ArgumentError, self))
  /\ remove (PyFloat f) self = (Raise ArgumentError, self)
  /\ search (PyFloat f) self = (Raise ArgumentError, self)
  /\ (forall key,
        - Z.of_nat (List.length (array self)) <= key
          < Z.of_nat (List.length (array self)) ->
        py_gt_int (PyFloat f) 2147483647 = false ->
        __setitem__ key (PyFloat f) self = (Raise ArgumentError, self)).
Proof.
  intros Htc. destruct self as [a tc rel]. cbn in Htc. subst tc.
  split; [|split; [|split]]; try reflexivity.
  intros key Hkey Hle. unfold __setitem__. unfold bind at 1.
  rewrite (index_error_handler_inside _ _ Hkey).
  unfold bind at 1. unfold __overflow_error_handler. rewrite Hle.
  reflexivity.
Qed.

(** X13.  [append] on type code "a" chooses the element kind by the type
    of the value: an integer goes through the range check and is written as
    a Long element, [OverflowError] above 2147483647; a float is written as
    a Double element with no check, so the buffer can hold both kinds. *)
Theorem append_mixed_outcome (self : Array) :
  typecode self = "a"%string ->
  (forall f,
      append (PyFloat f) self
      = (Ok tt, mkArray (array self ++ [et_dbl f]) "a" (released self)))
  /\ (forall z, 2147483647 < z ->
        append (PyInt z) self = (Raise OverflowError, self))
  /\ (forall z, is_c_long z = true -> z <= 2147483647 ->
        append (PyInt z) self
        = (Ok tt, mkArray (array self ++ [et_long z]) "a" (released self))).
Proof.
  intros Htc. destruct self as [a tc rel]. cbn in Htc. subst tc.
  split; [|split].
  - reflexivity.
  - intros z Hz. expose.
    cbn [is_a String.eqb Ascii.eqb Bool.eqb py_gt_int].
    destruct (Z.ltb_spec 2147483647 z); [reflexivity|lia].
  - intros z Hz Hmax. expose.
    cbn [is_a String.eqb Ascii.eqb Bool.eqb py_gt_int].
    destruct (Z.ltb_spec 2147483647 z); [lia|].
    rewrite (wrap_64_id _ Hz). reflexivity.
Qed.

(** ** Unequal sequences *)

Lemma eq_loop_skip (self : Array) (other : list pyval) (agreeing rest : list nat) :
  (forall i, In i agreeing ->
     exists x y,
       __getitem__ (Z.of_nat i) self = (Ok x, self)
       /\ nth_error other i = Some y
       /\ py_ne x y = false) ->
  eq_loop (agreeing ++ rest) other self = eq_loop rest other self.
Proof.
  induction agreeing as [|i agreeing IH]; intros H; [reflexivity|].
  destruct (H i (or_introl eq_refl)) as [x [y [Hx [Hy Hne]]]].
  cbn [app eq_loop]. unfold bind at 1. rewrite Hx.
  unfold bind at 1. rewrite Hy. unfold ret at 1. rewrite Hne.
  apply IH. intros j Hj. apply H. now right.
Qed.

(** X12.  [__eq__] stops at the first index below [len(self)] where the
    two sequences do not agree: when [other] holds a value there that is
    [!=] to the container's, the result is [False]; when [other] has ended
    there, indexing it raises [IndexError], so a container is not compared
    unequal to its own proper prefix but makes the comparison fail. *)
Theorem eq_first_difference (self : Array) (other : list pyval) (k : nat)
    (x : pyval) :
  (k < List.length (array self))%nat ->
  (forall i, (i < k)%nat ->
     exists u v,
       __getitem__ (Z.of_nat i) self = (Ok u, self)
       /\ nth_error other i = Some v
       /\ py_ne u v = false) ->
  __getitem__ (Z.of_nat k) self = (Ok x, self) ->
  (forall y, nth_error other k = Some y -> py_ne x y = true ->
     __eq__ other self = (Ok false, self))
  /\ (nth_error other k = None ->
      __eq__ other self = (Raise IndexError, self)).
Proof.
  intros Hk Hagree Hx.
  assert (Hrun : __eq__ other self
                 = eq_loop (k :: seq (S k) (List.length (array self) - S k))
                     other self).
  { unfold __eq__. run. rewrite Nat2Z.id.
    replace (List.length (array self))
      with (k + S (List.length (array self) - S k))%nat at 1 by lia.
    rewrite seq_app. cbn [seq Nat.add].
    apply eq_loop_skip. intros i Hi. apply Hagree.
    apply in_seq in Hi. lia. }
  split.
  - intros y Hy Hne. rewrite Hrun. cbn [eq_loop].
    unfold bind at 1. rewrite Hx. unfold bind at 1. rewrite Hy.
    unfold ret at 1. now rewrite Hne.
  - intros Hnone. rewrite Hrun. cbn [eq_loop].
    unfold bind at 1. rewrite Hx. unfold bind at 1. rewrite Hnone.
    reflexivity.
Qed.

(** ** The added theorems at concrete containers *)

Lemma init_long_initializer_witness :
  (forall z, In z [1; 3; 5] -> is_c_long z = true /\ z <= 2147483647)
  /\ (exists self,
        __init__ "i" (Some (map PyInt [1; 3; 5])) = Ok self
        /\ array self = map et_long [1; 3; 5]
        /\ __len__ self = (Ok 3, self))
  /\ __init__ "i" (Some (map PyInt [1; 3; 5] ++ PyInt 2147483648 :: []))
     = Raise OverflowError
  /\ __init__ "i" (Some (map PyInt [1; 3; 5] ++ PyFloat 2.5 :: [PyInt 7]))
     = Raise TypeError.
Proof.
  assert (H : forall z, In z [1; 3; 5] ->
                is_c_long z = true /\ z <= 2147483647).
  { intros z [<-|[<-|[<-|[]]]]; split; try reflexivity; lia. }
  split; [exact H|].
  destruct (init_long_initializer [1; 3; 5] H) as [Hok [Hover Htype]].
  split; [exact Hok|]. split.
  - apply Hover. lia.
  - apply Htype.
Defined.

Lemma append_long_outcome_witness :
  let self := mkArray [et_long 1] "i" [] in
  typecode self = "i"%string
  /\ append (PyFloat 3000000000) self = (Raise TypeError, self)
  /\ append (PyInt (-5)) self
     = (Ok tt, mkArray [et_long 1; et_long (-5)] "i" []).
Proof.
  cbv zeta. split; [reflexivity|].
  destruct (append_long_outcome (mkArray [et_long 1] "i" []) eq_refl)
    as [Hfloat [_ Hint]].
  split; [apply Hfloat|].
  apply (Hint (-5)); [reflexivity|lia].
Defined.

Lemma append_double_outcome_witness :
  let self := mkArray [et_dbl 1.5] "d" [] in
  typecode self = "d"%string
  /\ append (PyFloat 3000000000) self
     = (Ok tt, mkArray [et_dbl 1.5; et_dbl 3000000000] "d" [])
  /\ append (PyInt 7) self
     = (Ok tt, mkArray [et_dbl 1.5; et_dbl 7] "d" []).
Proof.
  cbv zeta. split; [reflexivity|].
  destruct (append_double_outcome (mkArray [et_dbl 1.5] "d" []) eq_refl)
    as [Hfloat [Hint _]].
  split; [apply Hfloat|].
  apply (Hint 7 7%float). reflexivity.
Defined.

Lemma mixed_typecode_witness :
  let self := mkArray [et_long 1; et_dbl 2.5] "a" [] in
  typecode self = "a"%string
  /\ pop (-1) self = (Raise AttributeError, self)
  /\ insert 0 (PyInt 7) self = (Ok tt, mkArray [] "a" [array self])
  /\ remove (PyInt 1) self = (Ok tt, mkArray [] "a" [array self]).
Proof.
  cbv zeta. split; [reflexivity|].
  destruct (mixed_typecode (mkArray [et_long 1; et_dbl 2.5] "a" []) eq_refl)
    as [Hpop [_ [Hremove [Hinsert _]]]].
  split; [apply Hpop|]. split; [apply Hinsert|apply Hremove].
Defined.

Lemma long_container_rejects_float_witness :
  let self := mkArray [et_long 1] "i" [] in
  typecode self = "i"%string
  /\ insert 0 (PyFloat 2.5) self = (Raise ArgumentError, self)
  /\ __setitem__ 0 (PyFloat 2.5) self = (Raise ArgumentError, self).
Proof.
  cbv zeta. split; [reflexivity|].
  destruct (long_container_rejects_float (mkArray [et_long 1] "i" []) 2.5
              eq_refl) as [Hinsert [_ [_ Hset]]].
  split; [apply Hinsert|].
  apply Hset; [cbn; lia|reflexivity].
Defined.

Lemma eq_first_difference_witness :
  let self := mkArray [et_long 1; et_long 2; et_long 3] "i" [] in
  __eq__ [PyInt 1; PyInt 2] self = (Raise IndexError, self)
  /\ __eq__ [PyInt 1; PyInt 5; PyInt 3] self = (Ok false, self).
Proof.
  cbv zeta. split.
  - apply (proj2 (eq_first_difference
                    (mkArray [et_long 1; et_long 2; et_long 3] "i" [])
                    [PyInt 1; PyInt 2] 2 (PyInt 3)
                    ltac:(cbn; lia)
                    ltac:(intros [|[|i]] Hi;
                          [ exists (PyInt 1), (PyInt 1); repeat split
                          | exists (PyInt 2), (PyInt 2); repeat split
                          | lia ])
                    eq_refl)).
    reflexivity.
  - apply (proj1 (eq_first_difference
                    (mkArray [et_long 1; et_long 2; et_long 3] "i" [])
                    [PyInt 1; PyInt 5; PyInt 3] 1 (PyInt 2)
                    ltac:(cbn; lia)
                    ltac:(intros [|i] Hi;
                          [ exists (PyInt 1), (PyInt 1); repeat split
                          | lia ])
                    eq_refl) (PyInt 5)); reflexivity.
Defined.

Lemma append_mixed_outcome_witness :
  let self := mkArray [et_long 1] "a" [] in
  typecode self = "a"%string
  /\ append (PyFloat 2.5) self
     = (Ok tt, mkArray [et_long 1; et_dbl 2.5] "a" [])
  /\ append (PyInt 2147483648) self = (Raise OverflowError, self).
Proof.
  cbv zeta. split; [reflexivity|].
  destruct (append_mixed_outcome (mkArray [et_long 1] "a" []) eq_refl)
    as [Hfloat [Hover _]].
  split; [apply Hfloat|]. apply Hover. lia.
Defined.


(** ** Values and positions the conversion changes *)

(** C3.  [pop] has no index check of its own and hands the position to the
    library as a C [int]: on [10, 20, 30], [pop(4294967295)] reaches the
    library as position -1, removes the last element and returns 30, where
    [__getitem__] raises [IndexError] for the same position. *)
Theorem pop_masks_position :
  let self := mkArray [et_long 10; et_long 20; et_long 30] "i" [] in
  Z.of_nat (List.length (array self)) <= 4294967295
  /\ ctypes.c_int 4294967295 = -1
  /\ __getitem__ 4294967295 self = (Raise IndexError, self)
  /\ pop 4294967295 self
     = (Ok (PyInt 30),
        mkArray [et_long 10; et_long 20] "i" [array self]).
Proof.
  cbv zeta. split; [cbn; lia|]. repeat split.
Qed.


